(** * AQI dashboard: the calculator payload, the CSV-derived views and the
      calculation lifecycle of [frontend/src/App.jsx]

    The development embeds the data-transforming parts of the React component
    [App] as Rocq functions and settles the properties the specification
    states about them.

    - JavaScript numbers are IEEE 754 binary64 values: they are modelled by
      Rocq's primitive [float] (binary64, round to nearest even), so that
      [+] and [/] round exactly as the browser does.
    - A JavaScript value is a tagged union ([JS.value]); an object is the
      list of its own properties in enumeration order, looked up through
      [Object.prototype] as the language does.
    - React state is a record, and the asynchronous handler [handleSubmit]
      is a pair of state transformers around the outcome of [fetch]. *)

From Stdlib Require Import List String Ascii ZArith Bool Lia Floats Permutation.
From Stdlib Require Import DecimalString.
Import ListNotations.

(* ================================================================== *)
(** * JavaScript values and operators *)
(* ================================================================== *)

Module JS.

Local Open Scope string_scope.

(** The values a CSV cell, a form field or a looked-up property can hold.
    [VObj] is an opaque object or function (an inherited method, a [Date]);
    only its identity matters here. *)
Inductive value : Type :=
| VUndefined
| VNull
| VBool (b : bool)
| VNum (x : float)
| VStr (s : string)
| VObj (name : string).

(** [ToBoolean]: the falsy values are [undefined], [null], [false], [NaN],
    [+0], [-0] and the empty string. *)
Definition truthy (v : value) : bool :=
  match v with
  | VUndefined | VNull => false
  | VBool b => b
  | VNum x => negb (is_nan x || is_zero x)
  | VStr s => negb (String.eqb s "")
  | VObj _ => true
  end.

Definition nullish (v : value) : bool :=
  match v with
  | VUndefined | VNull => true
  | _ => false
  end.

(** [a || b] *)
Definition or (a b : value) : value := if truthy a then a else b.

(** [a ?? b] *)
Definition coalesce (a b : value) : value := if nullish a then b else a.

(** [typeof v === "number"] *)
Definition typeof_number (v : value) : bool :=
  match v with VNum _ => true | _ => false end.

(** [Number.isNaN(v)]: true only for the number [NaN]. *)
Definition Number_isNaN (v : value) : bool :=
  match v with VNum x => is_nan x | _ => false end.

(** An integer array length or index as a number. *)
Definition Number_of_nat (n : nat) : float :=
  SF2Prim (binary_normalize prec emax (Z.of_nat n) 0 false).

(** [String(n)] for a non-negative integer index: its decimal digits. *)
Definition String_of_nat (n : nat) : string :=
  NilEmpty.string_of_uint (Nat.to_uint n).

(** ** Objects *)

(** An object literal or a parsed row: its own enumerable properties, in
    the order [Object.keys] lists them. *)
Definition object : Type := list (string * value).

Fixpoint own (o : object) (k : string) : option value :=
  match o with
  | [] => None
  | (k', v) :: o' => if String.eqb k' k then Some v else own o' k
  end.

(** The properties every plain object inherits from [Object.prototype]. *)
Definition Object_prototype : list string :=
  [ "constructor"; "hasOwnProperty"; "isPrototypeOf"; "propertyIsEnumerable";
    "toLocaleString"; "toString"; "valueOf"; "__proto__";
    "__defineGetter__"; "__defineSetter__";
    "__lookupGetter__"; "__lookupSetter__" ].

Definition inherited (k : string) : bool :=
  existsb (String.eqb k) Object_prototype.

(** [o[k]] (and [o.k]): the own property, else the inherited one, else
    [undefined]. *)
Definition get (o : object) (k : string) : value :=
  match own o k with
  | Some v => v
  | None => if inherited k then VObj ("Object.prototype." ++ k) else VUndefined
  end.

(** [Object.keys(o)] *)
Definition Object_keys (o : object) : list string := map fst o.

(** [arr.map((x, i) => f(x, i))], the index starting at [i]. *)
Fixpoint mapi_from {A B : Type} (f : A -> nat -> B) (i : nat) (l : list A)
  : list B :=
  match l with
  | [] => []
  | x :: l' => f x i :: mapi_from f (S i) l'
  end.

Definition mapi {A B : Type} (f : A -> nat -> B) (l : list A) : list B :=
  mapi_from f 0 l.

(** ** [parseFloat] *)

(** The longest prefix of the trimmed input that is a [StrDecimalLiteral]
    is read and rounded to the nearest binary64 value; the result is [NaN]
    when no prefix is one. Characters are code units below 256. *)

Definition is_digit (c : ascii) : bool :=
  (48 <=? nat_of_ascii c)%nat && (nat_of_ascii c <=? 57)%nat.

Definition digit_val (c : ascii) : Z := Z.of_nat (nat_of_ascii c) - 48.

(** White space and line terminators: TAB, LF, VT, FF, CR, SP, NBSP. *)
Definition is_space (c : ascii) : bool :=
  existsb (Nat.eqb (nat_of_ascii c)) [9; 10; 11; 12; 13; 32; 160]%nat.

Fixpoint trim_start (s : string) : string :=
  match s with
  | String c s' => if is_space c then trim_start s' else s
  | EmptyString => s
  end.

(** The maximal run of decimal digits at the head of [s]: the number they
    denote after the digits already read ([acc]), how many there are, and
    what follows. *)
Fixpoint digits (s : string) (acc : Z) (n : nat) : Z * nat * string :=
  match s with
  | String c s' =>
      if is_digit c then digits s' (10 * acc + digit_val c)%Z (S n)
      else (acc, n, s)
  | EmptyString => (acc, n, s)
  end.

Definition sign (s : string) : bool * string :=
  match s with
  | String "-" s' => (true, s')
  | String "+" s' => (false, s')
  | _ => (false, s)
  end.

(** The value of an [ExponentPart] at the head of [s] and what follows it;
    0 and [s] itself when there is none (an [e] that no digit follows is
    not part of the literal). *)
Definition exponent_part (s : string) : Z * string :=
  match s with
  | String c s' =>
      if Ascii.eqb c "e" || Ascii.eqb c "E" then
        let (neg, s'') := sign s' in
        let '(v, n, r) := digits s'' 0%Z 0%nat in
        match n with
        | O => (0%Z, s)
        | S _ => (if neg then (- v)%Z else v, r)
        end
      else (0%Z, s)
  | EmptyString => (0%Z, s)
  end.

(** A recognised literal: [Infinity], or the decimal [m * 10^e]. *)
Inductive literal : Type :=
| LitInfinity (neg : bool)
| LitDecimal (neg : bool) (m : Z) (e : Z).

(** The literal at the head of [s], with the text left after it. *)
Definition unsigned_literal (neg : bool) (s : string)
  : option (literal * string) :=
  if String.prefix "Infinity" s
  then Some (LitInfinity neg, String.substring 8 (String.length s - 8) s)
  else
    let '(i, ni, r) := digits s 0%Z 0%nat in
    let '(f, nf, r') :=
      match r with
      | String "." r1 => digits r1 i 0%nat
      | _ => (i, 0%nat, r)
      end in
    match (ni + nf)%nat with
    | O => None
    | S _ =>
        let (e, rest) := exponent_part r' in
        Some (LitDecimal neg f (e - Z.of_nat nf), rest)
    end.

Definition str_decimal_literal (s : string) : option (literal * string) :=
  let (neg, s') := sign s in unsigned_literal neg s'.

(** The binary64 value nearest to [m * 10^e] (ties to even), for [0 <= m]. *)
Definition round_decimal (neg : bool) (m e : Z) : float :=
  SF2Prim
    (if (0 <=? e)%Z then
       binary_normalize prec emax (cond_Zopp neg (m * 10 ^ e)) 0 neg
     else
       match m with
       | Z0 => S754_zero neg
       | _ =>
           let '(q, e', l) :=
             SFdiv_core_binary prec emax m 0 (10 ^ (- e)) 0 in
           binary_round_aux prec emax neg q e' l
       end).

Definition literal_value (l : literal) : float :=
  match l with
  | LitInfinity neg => if neg then neg_infinity else infinity
  | LitDecimal neg m e => round_decimal neg m e
  end.

Definition parseFloat (s : string) : float :=
  match str_decimal_literal (trim_start s) with
  | Some (l, _) => literal_value l
  | None => nan
  end.

End JS.

(* ================================================================== *)
(** * The component [App] *)
(* ================================================================== *)

Module App.

Import JS.
Local Open Scope string_scope.

(** ** State *)

(** The calculator form: six text fields, all empty at first. *)
Record Form : Type := {
  pm25 : string;
  pm10 : string;
  so2 : string;
  no2 : string;
  co : string;
  o3 : string
}.

(** The body of a successful response of the scoring service. *)
Record ScoreResult : Type := {
  aqi : float;
  category : string;
  dominant_pollutant : string;
  chemistry_note : string
}.

(** The [useState] cells of [App]; [result = None] is [null]. *)
Record State : Type := {
  form : Form;
  result : option ScoreResult;
  loading : bool;
  calcError : string;
  csvData : list object;
  csvError : string
}.

Definition initial : State := {|
  form := {| pm25 := ""; pm10 := ""; so2 := ""; no2 := ""; co := ""; o3 := "" |};
  result := None;
  loading := false;
  calcError := "";
  csvData := [];
  csvError := ""
|}.

Definition setForm (f : Form) (st : State) : State :=
  {| form := f; result := result st; loading := loading st;
     calcError := calcError st; csvData := csvData st; csvError := csvError st |}.

Definition setResult (r : option ScoreResult) (st : State) : State :=
  {| form := form st; result := r; loading := loading st;
     calcError := calcError st; csvData := csvData st; csvError := csvError st |}.

Definition setLoading (b : bool) (st : State) : State :=
  {| form := form st; result := result st; loading := b;
     calcError := calcError st; csvData := csvData st; csvError := csvError st |}.

Definition setCalcError (e : string) (st : State) : State :=
  {| form := form st; result := result st; loading := loading st;
     calcError := e; csvData := csvData st; csvError := csvError st |}.

Definition setCsvData (d : list object) (st : State) : State :=
  {| form := form st; result := result st; loading := loading st;
     calcError := calcError st; csvData := d; csvError := csvError st |}.

Definition setCsvError (e : string) (st : State) : State :=
  {| form := form st; result := result st; loading := loading st;
     calcError := calcError st; csvData := csvData st; csvError := e |}.

(** ** [handleSubmit] *)

(** [parseFloat(field) || 0] *)
Definition field_value (field : string) : value :=
  or (VNum (parseFloat field)) (VNum 0).

(** The object literal [payload] built from the form. *)
Definition payload (f : Form) : object :=
  [ ("pm25", field_value (pm25 f));
    ("pm10", field_value (pm10 f));
    ("so2", field_value (so2 f));
    ("no2", field_value (no2 f));
    ("co", field_value (co f));
    ("o3", field_value (o3 f)) ].

(** How the awaited [fetch] ends: the promise rejects (transport failure),
    or a response arrives with its [ok] flag and, when [res.json()]
    resolves, its body. *)
Inductive fetch_outcome : Type :=
| Rejected
| Responded (ok : bool) (json : option ScoreResult).

Definition calcFailed : string :=
  "Failed to calculate AQI. Is the FastAPI backend running?".

(** The synchronous head of the handler, up to the [await]. *)
Definition handleSubmit_start (st : State) : State :=
  setResult None (setCalcError "" (setLoading true st)).

(** The continuation once [fetch] has settled: [try] body or [catch],
    then [finally]. *)
Definition handleSubmit_settle (o : fetch_outcome) (st : State) : State :=
  setLoading false
    match o with
    | Responded true (Some data) => setResult (Some data) st
    | Responded true None
    | Responded false _
    | Rejected => setCalcError calcFailed st
    end.

Definition handleSubmit (o : fetch_outcome) (st : State) : State :=
  handleSubmit_settle o (handleSubmit_start st).

(** ** [handleFileUpload] *)

(** What [Papa.parse] reports: [complete] with [results.data] (possibly
    missing), or [error]. *)
Inductive parse_outcome : Type :=
| Complete (data : option (list object))
| Failed.

(** [file] is [None] when no file was chosen. *)
Definition handleFileUpload (file : option parse_outcome) (st : State) : State :=
  match file with
  | None => st
  | Some o =>
      let st := setCsvError "" st in
      match o with
      | Complete (Some (r :: rs)) => setCsvData (r :: rs) st
      | Complete (Some []) | Complete None =>
          setCsvData [] (setCsvError "CSV is empty or invalid." st)
      | Failed => setCsvData [] (setCsvError "Could not read CSV file." st)
      end
  end.

(** ** The calculator and the upload as a transition system *)

(** The submit button is [disabled={loading}]: a submission starts only
    when none is pending. *)
Inductive step : State -> State -> Prop :=
| step_change (f : Form) (st : State) :
    step st (setForm f st)
| step_submit (st : State) :
    loading st = false -> step st (handleSubmit_start st)
| step_settle (o : fetch_outcome) (st : State) :
    loading st = true -> step st (handleSubmit_settle o st)
| step_upload (file : option parse_outcome) (st : State) :
    step st (handleFileUpload file st).

Inductive reachable : State -> Prop :=
| reachable_initial : reachable initial
| reachable_step (st st' : State) :
    reachable st -> step st st' -> reachable st'.

(** ** Chart data from the CSV *)

(** The chart-relevant fields of the Chart.js data object: [labels] and
    [datasets[0].data]. *)
Record LineData : Type := {
  labels : list value;
  data : list value
}.

(** [r.date || `Reading ${i + 1}`] *)
Definition aqiLabel (r : object) (i : nat) : value :=
  or (get r "date") (VStr ("Reading " ++ String_of_nat (i + 1))).

(** [r.AQI ?? r.aqi ?? 0] *)
Definition aqiValue (r : object) : value :=
  coalesce (coalesce (get r "AQI") (get r "aqi")) (VNum 0).

Definition aqiLineData (csvData : list object) : option LineData :=
  if (0 <? List.length csvData)%nat
  then Some {| labels := mapi aqiLabel csvData; data := map aqiValue csvData |}
  else None.

Definition pollutantKeys : list string :=
  ["PM2_5"; "PM10"; "NO2"; "SO2"; "O3"; "CO"].

(** [typeof v === "number" && !Number.isNaN(v)] *)
Definition numeric (v : value) : bool :=
  typeof_number v && negb (Number_isNaN v).

(** [csvData.map((row) => row[key]).filter(...)] *)
Definition vals (key : string) (csvData : list object) : list value :=
  filter numeric (map (fun row => get row key) csvData).

(** The numbers of a list of values; on a filtered column every element
    is one (see [numbers_vals]). *)
Fixpoint numbers (l : list value) : list float :=
  match l with
  | [] => []
  | VNum x :: l' => x :: numbers l'
  | _ :: l' => numbers l'
  end.

(** [if (!vals.length) return 0;
     return vals.reduce((a, b) => a + b, 0) / vals.length;] *)
Definition mean (vals : list float) : float :=
  match List.length vals with
  | O => 0%float
  | S _ => (fold_left PrimFloat.add vals 0 / Number_of_nat (List.length vals))%float
  end.

Definition pollutantMeans (csvData : list object) : list float :=
  if (0 <? List.length csvData)%nat
  then map (fun key => mean (numbers (vals key csvData))) pollutantKeys
  else [].

(** [labels] and [datasets[0].data] of the bar chart. *)
Definition pollutantMeanData (csvData : list object)
  : option (list string * list float) :=
  if (0 <? List.length csvData)%nat
  then Some (pollutantKeys, pollutantMeans csvData)
  else None.

(** ** [getBadgeColor] *)

Definition badgeMap : object :=
  [ ("Good", VStr "bg-green-500");
    ("Satisfactory", VStr "bg-lime-500");
    ("Moderate", VStr "bg-yellow-400");
    ("Poor", VStr "bg-orange-500");
    ("Very Poor", VStr "bg-red-600");
    ("Severe", VStr "bg-purple-700") ].

(** [map[category] || "bg-slate-700"] *)
Definition getBadgeColor (category : string) : value :=
  or (get badgeMap category) (VStr "bg-slate-700").

(** ** [DataTab] *)

Section DataTab.

(** [Number::toString] and the string conversion of an object are the
    engine's; the table only passes their results on. *)
Variable Number_toString : float -> string.
Variable Object_toString : string -> string.

(** [String(v)] *)
Definition ToString (v : value) : string :=
  match v with
  | VUndefined => "undefined"
  | VNull => "null"
  | VBool true => "true"
  | VBool false => "false"
  | VNum x => Number_toString x
  | VStr s => s
  | VObj o => Object_toString o
  end.

Definition headers (csvData : list object) : list string :=
  match csvData with
  | row0 :: _ => Object_keys row0
  | [] => ["No data loaded"]
  end.

(** [String(row[h] ?? "")] *)
Definition cell (row : object) (h : string) : string :=
  ToString (coalesce (get row h) (VStr "")).

(** The [<tbody>]: one list of cells per row of [csvData.slice(0, 80)]. *)
Definition tbody (csvData : list object) : list (list string) :=
  map (fun row => map (cell row) (headers csvData)) (firstn 80 csvData).

(** The table is rendered only when [csvData.length !== 0]. *)
Definition table (csvData : list object)
  : option (list string * list (list string)) :=
  match List.length csvData with
  | O => None
  | S _ => Some (headers csvData, tbody csvData)
  end.

End DataTab.

End App.

(* ================================================================== *)
(** * The tabular parser *)
(* ================================================================== *)

Module Papa.

Import JS.
Local Open Scope string_scope.

(** The pieces of [s] between the occurrences of [sep]. *)
Fixpoint split (sep : ascii) (s : string) : list string :=
  match s with
  | EmptyString => [EmptyString]
  | String c s' =>
      if Ascii.eqb c sep then EmptyString :: split sep s'
      else
        match split sep s' with
        | f :: fs => String c f :: fs
        | [] => [String c EmptyString]
        end
  end.

Definition lines (text : string) : list string := split "010"%char text.

Definition fields (line : string) : list string := split ","%char line.

Definition nonempty (line : string) : bool := negb (String.eqb line "").

(** Modelled from the spec: the cell typing of the parser ([Papa.parse]
    of the papaparse package with [dynamicTyping], which is not among the
    sources). Section 4.1: a cell that parses as a finite number in decimal
    syntax is a number, an empty cell is missing, anything else stays a
    string. *)
Definition cell_value (s : string) : value :=
  if String.eqb s "" then VNull
  else
    match str_decimal_literal s with
    | Some (LitDecimal neg m e, EmptyString) =>
        let x := round_decimal neg m e in
        if is_finite x then VNum x else VStr s
    | _ => VStr s
    end.

(** Modelled from the spec: one Row Record per data line, pairing the
    header's fields with the line's typed cells in order. *)
Definition record (header : list string) (line : string) : object :=
  combine header (map cell_value (fields line)).

Definition header (text : string) : list string :=
  match lines text with
  | h :: _ => fields h
  | [] => []
  end.

(** The data lines that are not entirely empty. *)
Definition data_lines (text : string) : list string :=
  filter nonempty (tl (lines text)).

(** Modelled from the spec: the parser [Papa.parse] (called with [header],
    [dynamicTyping] and [skipEmptyLines]) belongs to the papaparse package
    and is not among the sources. Section 4.1: the first line is the
    header, every later line that is not empty gives one Row Record, in
    input order; quoting is outside the model. *)
Definition parse (text : string) : list object :=
  map (record (header text)) (data_lines text).

(** A valid CSV text: a header line, at least one data line that is not
    empty, and as many cells on each of them as the header has fields. *)
Definition valid (text : string) : bool :=
  nonempty (hd "" (lines text))
  && (0 <? List.length (data_lines text))%nat
  && forallb
       (fun l => (List.length (fields l) =? List.length (header text))%nat)
       (data_lines text).

End Papa.

(* ================================================================== *)
(** * The other handlers and the tab components *)
(* ================================================================== *)

Module Dashboard.

Import JS App.
Local Open Scope string_scope.

(** ** [handleChange] *)

(** [{ ...o, [k]: v }]: the properties of [o] in their order, the one
    named [k] with the new value, added at the end when [o] has none. *)
Fixpoint assign (o : object) (k : string) (v : value) : object :=
  match o with
  | [] => [(k, v)]
  | (k', v') :: o' =>
      if String.eqb k' k then (k', v) :: o' else (k', v') :: assign o' k v
  end.

(** The state object [form]. *)
Definition Form_object (f : Form) : object :=
  [ ("pm25", VStr (pm25 f));
    ("pm10", VStr (pm10 f));
    ("so2", VStr (so2 f));
    ("no2", VStr (no2 f));
    ("co", VStr (co f));
    ("o3", VStr (o3 f)) ].

(** The text an input bound to [form[k]] holds. *)
Definition field (o : object) (k : string) : string :=
  match get o k with
  | VStr s => s
  | _ => ""
  end.

(** The six properties of the form object that the component reads; a
    property under any other name is read by nothing. *)
Definition Form_of (o : object) : Form :=
  {| pm25 := field o "pm25";
     pm10 := field o "pm10";
     so2 := field o "so2";
     no2 := field o "no2";
     co := field o "co";
     o3 := field o "o3" |}.

(** [setForm({ ...form, [e.target.name]: e.target.value })] *)
Definition handleChange (name value : string) (st : State) : State :=
  setForm (Form_of (assign (Form_object (form st)) name (VStr value))) st.

(** The [name] attributes of the six inputs of the calculator. *)
Definition inputNames : list string :=
  ["pm25"; "pm10"; "so2"; "no2"; "co"; "o3"].

(** ** Chart data from the form *)

Definition pollutantLabels : list string :=
  ["PM2.5"; "PM10"; "SO₂"; "NO₂"; "CO"; "O₃"].

Definition pollutantValues (f : Form) : list value :=
  [ field_value (pm25 f);
    field_value (pm10 f);
    field_value (so2 f);
    field_value (no2 f);
    field_value (co f);
    field_value (o3 f) ].

(** [labels] and [datasets[0].data] of the bar chart of the reading. *)
Definition pollutantChartData (f : Form) : list string * list value :=
  (pollutantLabels, pollutantValues f).

(** ** The upload status in the sidebar *)

(** [{csvError && <p>{csvError}</p>}] *)
Definition errorLine (st : State) : option string :=
  if truthy (VStr (csvError st)) then Some (csvError st) else None.

(** [{!csvError && csvData.length > 0 && <p>Loaded {csvData.length} rows.</p>}] *)
Definition loadedLine (st : State) : option string :=
  if negb (truthy (VStr (csvError st))) && (0 <? List.length (csvData st))%nat
  then Some ("Loaded " ++ String_of_nat (List.length (csvData st)) ++ " rows.")
  else None.

(** ** [OverviewTab] *)

(** What the calculator tab shows of the state: the error box, the submit
    button and the snapshot ([None]: the invitation to run a
    calculation). *)
Record OverviewView : Type := {
  errorBox : option string;
  buttonDisabled : bool;
  buttonLabel : string;
  snapshot : option ScoreResult
}.

Definition OverviewTab (st : State) : OverviewView :=
  {| errorBox := if truthy (VStr (calcError st)) then Some (calcError st) else None;
     buttonDisabled := loading st;
     buttonLabel := if loading st then "Calculating..." else "Calculate AQI";
     snapshot := result st |}.

(** ** [ChartsTab] *)

Inductive AqiPanel : Type :=
| AqiChart (d : LineData)
| NoAqiColumn.

Inductive MeanPanel : Type :=
| MeanChart (d : list string * list float)
| MissingColumns.

(** The invitation to upload, and the two panels of the grid. *)
Record ChartsView : Type := {
  invitation : bool;
  panels : option (AqiPanel * MeanPanel)
}.

Definition ChartsTab (csvData : list object)
  (aqiLineData : option LineData)
  (pollutantMeanData : option (list string * list float)) : ChartsView :=
  {| invitation := (List.length csvData =? 0)%nat;
     panels :=
       if (0 <? List.length csvData)%nat
       then Some (match aqiLineData with
                  | Some d => AqiChart d
                  | None => NoAqiColumn
                  end,
                  match pollutantMeanData with
                  | Some d => MeanChart d
                  | None => MissingColumns
                  end)
       else None |}.

(** The charts tab as [App] renders it. *)
Definition charts (csvData : list object) : ChartsView :=
  ChartsTab csvData (aqiLineData csvData) (pollutantMeanData csvData).

(** ** The tabs *)

(** [TABS]: id and label. *)
Definition TABS : list (string * string) :=
  [ ("overview", "Overview");
    ("chemistry", "Chemistry of Pollutants");
    ("charts", "City & Charts");
    ("health", "Health & AQI Categories");
    ("data", "Data Explorer") ].

Inductive panel : Type :=
| PanelOverview
| PanelChemistry
| PanelCharts
| PanelHealth
| PanelData.

(** [{activeTab === id && <Component />}] *)
Definition when (activeTab id : string) (p : panel) : list panel :=
  if String.eqb activeTab id then [p] else [].

(** The children of [<motion.main>]. *)
Definition main (activeTab : string) : list panel :=
  when activeTab "overview" PanelOverview
  ++ when activeTab "chemistry" PanelChemistry
  ++ when activeTab "charts" PanelCharts
  ++ when activeTab "health" PanelHealth
  ++ when activeTab "data" PanelData.

(** The buttons of the tab bar drawn as selected. *)
Definition selected (activeTab : string) : list string :=
  map fst (filter (fun tab => String.eqb activeTab (fst tab)) TABS).

(** The values [activeTab] takes: ["overview"] at first, then the id of
    the button clicked ([setActiveTab(tab.id)]). *)
Inductive visited : string -> Prop :=
| visited_initial : visited "overview"
| visited_click (tab : string * string) (activeTab : string) :
    visited activeTab -> In tab TABS -> visited (fst tab).

End Dashboard.

(* ================================================================== *)
(** * Reference definitions *)
(* ================================================================== *)

(** The datasets and forms of the examples, and the functions read off the
    specification's sentences, against which the component is compared. *)

Import JS App.
Local Open Scope string_scope.

(** A dataset with header [foo,bar], and one whose AQI column is all zero. *)
Definition foo_bar : list object := [[("foo", VNum 1); ("bar", VNum 2)]].

Definition all_zero : list object :=
  [[("date", VStr "2024-01-01"); ("AQI", VNum 0)];
   [("date", VStr "2024-01-02"); ("AQI", VNum 0)]].

(** The value the specification describes: the [AQI] cell if it is a
    number, else the [aqi] cell if it is a number, else 0. *)
Definition numeric_fallback (r : object) : value :=
  if typeof_number (get r "AQI") then get r "AQI"
  else if typeof_number (get r "aqi") then get r "aqi"
  else VNum 0.

(** What the code computes: the [AQI] cell unless it is [null] or
    [undefined], else the [aqi] cell unless it is, else 0. *)
Definition nullish_fallback (r : object) : value :=
  if negb (nullish (get r "AQI")) then get r "AQI"
  else if negb (nullish (get r "aqi")) then get r "aqi"
  else VNum 0.

(** The label the specification describes: the [date] cell unless it is
    missing or absent. *)
Definition present_label (r : object) (i : nat) : value :=
  if nullish (get r "date") then VStr ("Reading " ++ String_of_nat (i + 1))
  else get r "date".

(** What the code computes: the [date] cell when it is truthy. *)
Definition truthy_label (r : object) (i : nat) : value :=
  if truthy (get r "date") then get r "date"
  else VStr ("Reading " ++ String_of_nat (i + 1)).

(** The projection of a column, read off the specification: the numbers
    found in the column, row after row, every other cell skipped. *)
Fixpoint project (key : string) (rows : list object) : list float :=
  match rows with
  | [] => []
  | r :: rows' =>
      match get r key with
      | VNum x => if is_nan x then project key rows' else x :: project key rows'
      | _ => project key rows'
      end
  end.

(** The rows [{X:1},{X:"a"},{X:3}]. *)
Definition rows_X : list object :=
  [[("X", VNum 1)]; [("X", VStr "a")]; [("X", VNum 3)]].

(** A successful response: status ok and a body that parses. *)
Definition succeeded (o : fetch_outcome) : bool :=
  match o with
  | Responded true (Some _) => true
  | _ => false
  end.

(** While a request is pending nothing is displayed, and a failure message
    is never displayed together with a result. *)
Definition consistent (st : State) : Prop :=
  (loading st = true -> calcError st = "" /\ result st = None) /\
  (calcError st <> "" -> result st = None).

(** A state in which an earlier result is on display. *)
Definition showing_result : State :=
  setResult
    (Some {| aqi := 10; category := "Good"; dominant_pollutant := "PM2.5";
             chemistry_note := "..." |})
    initial.

(** Header [x,constructor], a full line and a line with one cell. *)
Definition short_line : list object :=
  [[("x", VNum 1); ("constructor", VNum 2)]; [("x", VNum 3)]].

(** A dataset of 500 rows with a missing cell. *)
Definition rows_500 : list object :=
  repeat [("date", VStr "2024-01-01"); ("AQI", VNull)] 500.

(** The six categories with their colour classes. *)
Definition categories : list (string * string) :=
  [ ("Good", "bg-green-500");
    ("Satisfactory", "bg-lime-500");
    ("Moderate", "bg-yellow-400");
    ("Poor", "bg-orange-500");
    ("Very Poor", "bg-red-600");
    ("Severe", "bg-purple-700") ].

(** The payload whose six fields are computed from the form by [g]. *)
Definition payload_of (g : string -> value) (f : Form) : object :=
  [ ("pm25", g (pm25 f));
    ("pm10", g (pm10 f));
    ("so2", g (so2 f));
    ("no2", g (no2 f));
    ("co", g (co f));
    ("o3", g (o3 f)) ].

(** The field value the specification describes: 0 when the field is
    empty or not numeric, 0 when it is negative, else the parsed number. *)
Definition clamped_or_zero (field : string) : value :=
  let x := parseFloat field in
  if is_nan x then VNum 0
  else if (x <? 0)%float then VNum 0
  else VNum x.

(** What the code computes: 0 when nothing is parsed or the parsed number
    is a zero, else the parsed number. *)
Definition parsed_or_zero (field : string) : value :=
  let x := parseFloat field in
  if is_nan x || is_zero x then VNum 0 else VNum x.

(** A form with a negative, an empty, a non-numeric and a zero field. *)
Definition negative_form : Form :=
  {| pm25 := "-5"; pm10 := ""; so2 := "abc"; no2 := "0"; co := "1.5";
     o3 := "12" |}.

(** The state after the upload of a file holding [text]: the parser reports
    [complete] with the rows it read. *)
Definition upload (text : string) (st : State) : State :=
  handleFileUpload (Some (Complete (Some (Papa.parse text)))) st.

Definition newline : string := String "010"%char "".

(** Header [date,AQI], two data lines (one with an empty cell) and an
    empty line between them. *)
Definition csv_example : string :=
  "date,AQI" ++ newline ++ "2024-01-01,42" ++ newline ++ newline
  ++ "2024-01-02," ++ newline.

(** The parser reported an error, no data or no row. *)
Definition upload_failed (o : parse_outcome) : bool :=
  match o with
  | Complete (Some (_ :: _)) => false
  | _ => true
  end.

(** The state once the parser has reported [o] for the chosen file. *)
Definition uploaded (o : parse_outcome) (st : State) : State :=
  handleFileUpload (Some o) st.

(** Two datasets with the same cells under the keys [keys], row by row. *)
Definition same_cells (keys : list string) (rows rows' : list object) : Prop :=
  Forall2 (fun r r' => forall k, In k keys -> get r k = get r' k) rows rows'.

(* ================================================================== *)
(** * Facts on binary64 arithmetic *)
(* ================================================================== *)

Module Binary64.

(** The primitive operations are specified on [spec_float] (the view
    [Prim2SF] of a binary64 value); the facts below are those the
    calculator and the mean rely on. *)

Local Open Scope Z_scope.

(** The number 1: mantissa [2^52], exponent [-52]. *)
Definition SFone : spec_float := S754_finite false 4503599627370496 (-52).

Lemma Prim2SF_one : Prim2SF 1 = SFone.
Proof. reflexivity. Qed.

Lemma Prim2SF_zero : Prim2SF 0 = S754_zero false.
Proof. reflexivity. Qed.

(** [SpecFloat] states its operations with the core integer functions;
    [std_Z] restates them with those of [ZArith], for [lia] and the library
    lemmas. *)
Ltac std_Z :=
  change IntDef.Z.sub with Z.sub in *;
  change IntDef.Z.add with Z.add in *;
  change IntDef.Z.mul with Z.mul in *;
  change IntDef.Z.opp with Z.opp in *;
  change IntDef.Z.max with Z.max in *;
  change IntDef.Z.min with Z.min in *;
  change IntDef.Z.leb with Z.leb in *;
  change IntDef.Z.eqb with Z.eqb in *;
  change IntDef.Z.even with Z.even in *;
  change IntDef.Z.compare with Z.compare in *;
  change IntDef.Z.shiftl with Z.shiftl in *;
  change IntDef.Z.div_eucl with Z.div_eucl in *.

Lemma bounded_inv (m : positive) (e : Z) :
  bounded prec emax m e = true ->
  Z.max (Zpos (digits2_pos m) + e - 53) (-1074) = e /\ e <= 971.
Proof.
  unfold bounded, canonical_mantissa, fexp, emin, prec, emax.
  intros H. apply andb_prop in H. destruct H as [H1 H2].
  apply Z.eqb_eq in H1. apply Z.leb_le in H2. split; [exact H1 | exact H2].
Qed.

Lemma div_eucl_exact (a b : Z) : 0 < b -> Z.div_eucl (a * b) b = (a, 0).
Proof.
  intros Hb.
  pose proof (Z.div_mul a b ltac:(lia)) as Hq.
  pose proof (Z.mod_mul a b ltac:(lia)) as Hr.
  unfold Z.div, Z.modulo in Hq, Hr.
  destruct (Z.div_eucl (a * b) b) as [q r]. now subst.
Qed.

Lemma shr_fexp_canonical (m : positive) (e : Z) :
  bounded prec emax m e = true ->
  shr_fexp prec emax (Zpos m) e loc_Exact =
    ({| shr_m := Zpos m; shr_r := false; shr_s := false |}, e).
Proof.
  intros Hb. apply bounded_inv in Hb. destruct Hb as [Hc He].
  unfold shr_fexp. std_Z.
  assert (Hf : fexp prec emax (Zdigits2 (Zpos m) + e) - e = 0).
  { unfold fexp, emin, prec, emax. simpl Zdigits2. lia. }
  rewrite Hf. reflexivity.
Qed.

Lemma binary_round_aux_tail (s : bool) (m : positive) (e : Z) :
  bounded prec emax m e = true ->
  (let '(mrs, e') := shr_fexp prec emax (Zpos m) e loc_Exact in
   match shr_m mrs with
   | Z0 => S754_zero s
   | Zpos m0 =>
       if e' <=? emax - prec then S754_finite s m0 e' else S754_infinity s
   | Zneg _ => S754_nan
   end) = S754_finite s m e.
Proof.
  intros Hb. rewrite (shr_fexp_canonical _ _ Hb).
  apply bounded_inv in Hb. destruct Hb as [_ He].
  apply Z.leb_le in He. cbv beta iota delta [shr_m].
  change (emax - prec) with 971. now rewrite He.
Qed.

(** Rounding a value that is already representable leaves it as it is. *)
Lemma binary_round_aux_canonical (s : bool) (m : positive) (e : Z) :
  bounded prec emax m e = true ->
  binary_round_aux prec emax s (Zpos m) e loc_Exact = S754_finite s m e.
Proof.
  intros Hb. unfold binary_round_aux.
  rewrite (shr_fexp_canonical _ _ Hb).
  cbv beta iota delta [shr_m loc_of_shr_record round_nearest_even].
  std_Z. exact (binary_round_aux_tail s _ _ Hb).
Qed.

Lemma SFdiv_one (s : bool) (m : positive) (e : Z) :
  bounded prec emax m e = true ->
  SFdiv prec emax (S754_finite s m e) SFone = S754_finite s m e.
Proof.
  intros Hb. pose proof Hb as Hb'. apply bounded_inv in Hb'. destruct Hb' as [Hc He].
  unfold SFdiv, SFone. rewrite xorb_false_r.
  unfold SFdiv_core_binary. std_Z.
  change (Zdigits2 (Zpos 4503599627370496)) with 53.
  change (Zdigits2 (Zpos m)) with (Zpos (digits2_pos m)).
  set (d := Zpos (digits2_pos m)) in *.
  destruct (Z.eq_dec e (-1074)) as [Hsub|Hnorm].
  - assert (He' : Z.min (fexp prec emax (d + e - (53 + -52))) (e - -52) = e).
    { unfold fexp, emin, prec, emax. lia. }
    rewrite He'.
    replace (e - -52 - e) with 52 by lia.
    rewrite Z.shiftl_mul_pow2 by lia.
    change (2 ^ 52) with 4503599627370496.
    rewrite div_eucl_exact by lia.
    change (new_location 4503599627370496 0) with loc_Exact.
    now apply binary_round_aux_canonical.
  - assert (He' : Z.min (fexp prec emax (d + e - (53 + -52))) (e - -52) = e - 1).
    { unfold fexp, emin, prec, emax. lia. }
    rewrite He'.
    replace (e - -52 - (e - 1)) with 53 by lia.
    rewrite Z.shiftl_mul_pow2 by lia.
    change (2 ^ 53) with (2 * 4503599627370496).
    rewrite Z.mul_assoc.
    rewrite div_eucl_exact by lia.
    change (new_location 4503599627370496 0) with loc_Exact.
    replace (Zpos m * 2) with (Zpos (xO m)) by lia.
    unfold binary_round_aux at 1. unfold shr_fexp at 1. std_Z.
    assert (Hf : fexp prec emax (Zdigits2 (Zpos (xO m)) + (e - 1)) - (e - 1) = 1).
    { unfold fexp, emin, prec, emax. simpl Zdigits2. fold d. lia. }
    rewrite Hf.
    cbv beta iota zeta delta [shr shr_record_of_loc iter_pos shr_1 shr_m
                              loc_of_shr_record round_nearest_even orb].
    std_Z. replace (e - 1 + 1) with e by lia.
    exact (binary_round_aux_tail s _ _ Hb).
Qed.

Lemma SFeqb_refl (x : spec_float) :
  x <> S754_nan -> SFeqb x x = true.
Proof.
  unfold SFeqb, SFcompare. destruct x as [[|]|[|]| |[|] m e]; intros H;
    try reflexivity; try (now elim H); std_Z;
    now rewrite Z.compare_refl, Pos.compare_cont_refl.
Qed.

Lemma is_nan_spec (x : float) :
  is_nan x = match Prim2SF x with S754_nan => true | _ => false end.
Proof.
  unfold is_nan. rewrite FloatAxioms.eqb_spec.
  destruct (Prim2SF x) eqn:E; try reflexivity;
    rewrite SFeqb_refl; try reflexivity; discriminate.
Qed.

Lemma is_zero_spec (x : float) :
  is_zero x = match Prim2SF x with S754_zero _ => true | _ => false end.
Proof.
  unfold is_zero. rewrite FloatAxioms.eqb_spec.
  change (Prim2SF zero) with (S754_zero false).
  destruct (Prim2SF x) as [[|]|[|]| |[|] m e]; reflexivity.
Qed.

(** A number below zero is neither [NaN] nor a zero. *)
Lemma negative_not_nan_nor_zero (x : float) :
  (x <? 0)%float = true -> is_nan x = false /\ is_zero x = false.
Proof.
  rewrite ltb_spec, Prim2SF_zero, is_nan_spec, is_zero_spec.
  destruct (Prim2SF x) as [[|]|[|]| |[|] m e]; cbn; intros H;
    try discriminate H; split; reflexivity.
Qed.

(** [0 + x] is [x], except that the zeros add up to [+0]. *)
Lemma add_zero_l (x : float) :
  Prim2SF (0 + x) =
    match Prim2SF x with S754_zero _ => S754_zero false | sx => sx end.
Proof.
  rewrite add_spec, Prim2SF_zero.
  destruct (Prim2SF x) as [[|]|[|]| |[|] m e]; reflexivity.
Qed.

Lemma div_one (x : float) : (x / 1)%float = x.
Proof.
  apply Prim2SF_inj. rewrite div_spec, Prim2SF_one.
  pose proof (Prim2SF_valid x) as Hv.
  destruct (Prim2SF x) as [[|]|[|]| |s m e]; try reflexivity.
  exact (SFdiv_one s m e Hv).
Qed.

Lemma SFadd_comm (x y : spec_float) :
  SFadd prec emax x y = SFadd prec emax y x.
Proof.
  destruct x as [[|]|[|]| |sx mx ex], y as [[|]|[|]| |sy my ey];
    try reflexivity.
  unfold SFadd. std_Z. rewrite (Z.min_comm ey ex). f_equal. apply Z.add_comm.
Qed.

Lemma add_comm (x y : float) : (x + y = y + x)%float.
Proof.
  apply Prim2SF_inj. rewrite !add_spec. apply SFadd_comm.
Qed.

(** The first two terms of a sum from [0] can be exchanged. *)
Lemma add_zero_swap (x y : float) : (0 + x + y = 0 + y + x)%float.
Proof.
  apply Prim2SF_inj. rewrite !add_spec, Prim2SF_zero.
  destruct (Prim2SF x) as [[|]|[|]| |sx mx ex] eqn:Ex,
           (Prim2SF y) as [[|]|[|]| |sy my ey] eqn:Ey;
    try reflexivity.
  change (SFadd prec emax (S754_zero false) (S754_finite sx mx ex))
    with (S754_finite sx mx ex).
  change (SFadd prec emax (S754_zero false) (S754_finite sy my ey))
    with (S754_finite sy my ey).
  apply SFadd_comm.
Qed.

End Binary64.

(* ================================================================== *)
(** * Properties *)
(* ================================================================== *)

(** ** Lists, objects and operators *)

Lemma positive_length_nonempty {A : Type} (l : list A) :
  (0 <? List.length l)%nat = true <-> l <> [].
Proof.
  destruct l as [|x l]; simpl.
  - split; [discriminate | intros H; now elim H].
  - split; [discriminate | reflexivity].
Qed.

Lemma own_absent (o : object) (k : string) :
  ~ In k (Object_keys o) -> own o k = None.
Proof.
  induction o as [|[k' v] o IH]; simpl; intros Hk.
  - reflexivity.
  - destruct (String.eqb_spec k' k) as [->|Hne].
    + elim Hk. now left.
    + apply IH. intros Hin. apply Hk. now right.
Qed.

Lemma get_absent (o : object) (k : string) :
  ~ In k (Object_keys o) -> inherited k = false -> get o k = VUndefined.
Proof.
  intros Hk Hi. unfold get. now rewrite (own_absent _ _ Hk), Hi.
Qed.

Lemma nth_error_mapi_from {A B : Type} (f : A -> nat -> B) (l : list A) :
  forall start i x,
    nth_error l i = Some x ->
    nth_error (mapi_from f start l) i = Some (f x (start + i)%nat).
Proof.
  induction l as [|y l IH]; intros start [|i] x H; simpl in *; try discriminate.
  - injection H as ->. now rewrite Nat.add_0_r.
  - rewrite (IH (S start) i x H). f_equal. f_equal. lia.
Qed.

Lemma length_mapi_from {A B : Type} (f : A -> nat -> B) (l : list A) :
  forall start, List.length (mapi_from f start l) = List.length l.
Proof.
  induction l as [|y l IH]; intros start; simpl; [reflexivity|].
  now rewrite IH.
Qed.

(** ** The AQI line view *)

Lemma aqiLineData_none (rows : list object) :
  aqiLineData rows = None <-> rows = [].
Proof.
  unfold aqiLineData. destruct rows as [|r rows]; simpl.
  - split; reflexivity.
  - split; discriminate.
Qed.

Lemma aqiLineData_some (rows : list object) :
  rows <> [] ->
  aqiLineData rows =
    Some {| labels := mapi aqiLabel rows; data := map aqiValue rows |}.
Proof.
  intros H. unfold aqiLineData.
  now rewrite (proj2 (positive_length_nonempty rows) H).
Qed.

Lemma aqiValue_no_column (r : object) :
  ~ In "AQI" (Object_keys r) -> ~ In "aqi" (Object_keys r) ->
  aqiValue r = VNum 0.
Proof.
  intros H1 H2. unfold aqiValue.
  rewrite (get_absent r "AQI" H1 eq_refl), (get_absent r "aqi" H2 eq_refl).
  reflexivity.
Qed.

(** C1, as the specification states it, fails: the view of a dataset with
    header [foo,bar] is not absent although neither [AQI] nor [aqi] is a
    header. *)
Lemma aqiLineData_ignores_header :
  ~ (forall rows : list object,
       rows <> [] ->
       (aqiLineData rows = None <->
        ~ In "AQI" (headers rows) /\ ~ In "aqi" (headers rows))).
Proof.
  intros H.
  assert (Hne : foo_bar <> []) by discriminate.
  destruct (H foo_bar Hne) as [_ Habs].
  assert (Hview : aqiLineData foo_bar = None).
  { apply Habs. split; simpl; intros [E|[E|[]]]; discriminate E. }
  discriminate Hview.
Qed.

(** C1 at the dataset with header [foo,bar]: neither [AQI] nor [aqi] is
    a header, yet the view is not absent but filled with 0, and the charts
    tab draws it as the AQI chart. The note "No AQI column detected", which
    the charts tab keeps for a non-empty dataset whose view is absent, is
    what an absent view would give there. A dataset whose AQI column is
    all zero yields a view. *)
Theorem aqiLineData_without_header_check :
  ~ In "AQI" (headers foo_bar) /\
  ~ In "aqi" (headers foo_bar) /\
  aqiLineData foo_bar =
    Some {| labels := [VStr "Reading 1"]; data := [VNum 0] |} /\
  aqiLineData foo_bar <> None /\
  Dashboard.panels (Dashboard.charts foo_bar) =
    Some (Dashboard.AqiChart {| labels := [VStr "Reading 1"]; data := [VNum 0] |},
          Dashboard.MeanChart (pollutantKeys, pollutantMeans foo_bar)) /\
  Dashboard.panels (Dashboard.ChartsTab foo_bar None (pollutantMeanData foo_bar)) =
    Some (Dashboard.NoAqiColumn,
          Dashboard.MeanChart (pollutantKeys, pollutantMeans foo_bar)) /\
  aqiLineData all_zero =
    Some {| labels := [VStr "2024-01-01"; VStr "2024-01-02"];
            data := [VNum 0; VNum 0] |}.
Proof.
  split; [simpl; intros [E|[E|[]]]; discriminate E|].
  split; [simpl; intros [E|[E|[]]]; discriminate E|].
  split; [reflexivity|]. split; [discriminate|].
  split; [reflexivity|]. split; reflexivity.
Qed.

(** C2, as the specification states it, fails: a row whose only AQI cell
    holds a string contributes that string, not 0. *)
Lemma aqiValue_keeps_strings :
  ~ (forall r : object, aqiValue r = numeric_fallback r).
Proof.
  intros H. specialize (H [("AQI", VStr "n/a")]). discriminate H.
Qed.

(** C2 (amended): the value placed in the AQI time series is the row's
    [AQI] cell whenever that cell is neither null nor undefined, whatever
    its type; otherwise the row's [aqi] cell under the same condition;
    otherwise 0. In particular a numeric [AQI] cell is taken, and a numeric
    [aqi] cell is taken when the [AQI] cell is missing or absent. *)
Theorem aqiValue_nullish_fallback :
  (forall r : object, aqiValue r = nullish_fallback r) /\
  (forall (rows : list object) (view : LineData),
      aqiLineData rows = Some view -> data view = map nullish_fallback rows) /\
  (forall (r : object) (x : float),
      get r "AQI" = VNum x -> aqiValue r = VNum x) /\
  (forall (r : object) (x : float),
      nullish (get r "AQI") = true -> get r "aqi" = VNum x ->
      aqiValue r = VNum x).
Proof.
  assert (Hval : forall r, aqiValue r = nullish_fallback r).
  { intros r. unfold aqiValue, nullish_fallback, coalesce.
    destruct (get r "AQI"), (get r "aqi"); reflexivity. }
  split; [exact Hval|]. split; [|split].
  - intros rows view Hview. unfold aqiLineData in Hview.
    destruct (0 <? List.length rows)%nat; [|discriminate].
    injection Hview as <-. simpl. apply map_ext. exact Hval.
  - intros r x Hx. unfold aqiValue. now rewrite Hx.
  - intros r x Hn Hx. unfold aqiValue. rewrite Hx.
    destruct (get r "AQI"); try discriminate; reflexivity.
Qed.

Lemma aqiValue_nullish_fallback_witness :
  aqiValue [("AQI", VNull); ("aqi", VNum 7)] = VNum 7.
Proof.
  apply (proj2 (proj2 (proj2 aqiValue_nullish_fallback))
           [("AQI", VNull); ("aqi", VNum 7)] 7%float); reflexivity.
Defined.

(** C4, as the specification states it, fails: a [date] cell holding the
    number 0 is replaced by the synthetic label. *)
Lemma aqiLabel_drops_zero_date :
  ~ (forall (rows : list object) (view : LineData) (i : nat) (r : object),
       aqiLineData rows = Some view ->
       nth_error rows i = Some r ->
       nth_error (labels view) i = Some (present_label r i)).
Proof.
  intros H.
  specialize (H [[("date", VNum 0); ("AQI", VNum 42)]] _ 0%nat _ eq_refl eq_refl).
  discriminate H.
Qed.

(** C4 (amended): the label placed in the AQI time series is the row's
    [date] cell whenever that cell is truthy; when it is absent, missing or
    another falsy value (the number 0, NaN, the empty string, false) the
    label is the synthetic "Reading {1-based index}". *)
Theorem aqiLabel_truthy_date
  (rows : list object) (view : LineData) (i : nat) (r : object) :
  aqiLineData rows = Some view ->
  nth_error rows i = Some r ->
  nth_error (labels view) i = Some (truthy_label r i).
Proof.
  intros Hview Hr. unfold aqiLineData in Hview.
  destruct (0 <? List.length rows)%nat; [|discriminate].
  injection Hview as <-. simpl. unfold mapi.
  rewrite (nth_error_mapi_from aqiLabel rows 0 i r Hr).
  reflexivity.
Qed.

Lemma aqiLabel_truthy_date_witness :
  nth_error
    [VStr "2024-01-01"; VStr "Reading 2"; VStr "Reading 3"] 2
  = Some (VStr "Reading 3").
Proof.
  exact (aqiLabel_truthy_date
           [[("date", VStr "2024-01-01")]; [("date", VNum 0)]; [("AQI", VNum 5)]]
           _ 2 _ eq_refl eq_refl).
Defined.

(** ** Column projection *)

Lemma numbers_vals (key : string) (rows : list object) :
  map VNum (numbers (vals key rows)) = vals key rows.
Proof.
  unfold vals. induction rows as [|r rows IH]; simpl; [reflexivity|].
  destruct (get r key) as [| |b|x|s|o]; try exact IH.
  change (numeric (VNum x)) with (negb (is_nan x)).
  destruct (is_nan x); simpl; [exact IH|].
  f_equal. exact IH.
Qed.

Lemma numbers_vals_project (key : string) (rows : list object) :
  numbers (vals key rows) = project key rows.
Proof.
  unfold vals. induction rows as [|r rows IH]; simpl; [reflexivity|].
  destruct (get r key) as [| |b|x|s|o]; try exact IH.
  change (numeric (VNum x)) with (negb (is_nan x)).
  destruct (is_nan x); simpl; [exact IH|].
  f_equal. exact IH.
Qed.

(** C6: the filtered column holds numbers only and loses none of them
    ([map VNum (numbers ...)] gives it back), and these are the numeric
    cells of the column in row order, every other cell left out rather than
    replaced by zero; column [X] of [{X:1},{X:"a"},{X:3}] gives [1,3], whose
    mean is 2. *)
Theorem vals_keeps_numbers_in_order :
  (forall key rows, map VNum (numbers (vals key rows)) = vals key rows) /\
  (forall key rows, numbers (vals key rows) = project key rows) /\
  vals "X" rows_X = [VNum 1; VNum 3] /\
  mean (numbers (vals "X" rows_X)) = 2%float.
Proof.
  split; [exact numbers_vals|].
  split; [exact numbers_vals_project|].
  split; reflexivity.
Qed.

(** ** The calculation lifecycle *)

Lemma handleFileUpload_calculator (file : option parse_outcome) (st : State) :
  result (handleFileUpload file st) = result st /\
  loading (handleFileUpload file st) = loading st /\
  calcError (handleFileUpload file st) = calcError st.
Proof.
  destruct file as [[[[|r rs]|]|]|]; simpl; repeat split.
Qed.

Lemma step_consistent (st st' : State) :
  step st st' -> consistent st -> consistent st'.
Proof.
  intros Hstep [Hpending Hfailed].
  destruct Hstep as [f st|st Hidle|o st Hbusy|file st].
  - split; simpl; assumption.
  - split; simpl; [intros _; split; reflexivity | intros H; now elim H].
  - destruct (Hpending Hbusy) as [Herr Hres].
    destruct o as [|[|] [data|]]; split; simpl; try discriminate; auto.
    intros H. now elim H.
  - destruct (handleFileUpload_calculator file st) as (Hr & Hl & He).
    unfold consistent. rewrite Hr, Hl, He. now split.
Qed.

Lemma reachable_consistent (st : State) : reachable st -> consistent st.
Proof.
  induction 1 as [|st st' _ IH Hstep].
  - split; simpl; [discriminate | intros H; now elim H].
  - exact (step_consistent st st' Hstep IH).
Qed.

(** C8: a submission whose response is not a success, or whose transport
    fails, ends with no Score Result, the failure message and no pending
    flag, whatever was displayed before; the handler clears the result
    before the request, and settling changes it only on a successful
    response; so in every state the application reaches, a failure message
    is displayed without a result. *)
Theorem handleSubmit_failure_keeps_no_result :
  (forall (st : State) (o : fetch_outcome),
      succeeded o = false ->
      result (handleSubmit o st) = None /\
      calcError (handleSubmit o st) = calcFailed /\
      loading (handleSubmit o st) = false) /\
  (forall st : State,
      result (handleSubmit_start st) = None /\
      calcError (handleSubmit_start st) = "" /\
      loading (handleSubmit_start st) = true) /\
  (forall (st : State) (o : fetch_outcome),
      result (handleSubmit_settle o st) <> result st -> succeeded o = true) /\
  (forall st : State,
      reachable st -> calcError st <> "" -> result st = None).
Proof.
  split; [|split; [|split]].
  - intros st [|[|] [data|]] Ho; try discriminate Ho; repeat split.
  - intros st. repeat split.
  - intros st [|[|] [data|]] Hchanged; simpl in *;
      try reflexivity; now elim Hchanged.
  - intros st Hst. exact (proj2 (reachable_consistent st Hst)).
Qed.

Lemma handleSubmit_failure_keeps_no_result_witness :
  result (handleSubmit (Responded false None) showing_result) = None /\
  calcError (handleSubmit (Responded false None) showing_result) = calcFailed /\
  loading (handleSubmit (Responded false None) showing_result) = false.
Proof.
  apply (proj1 handleSubmit_failure_keeps_no_result
           showing_result (Responded false None)).
  reflexivity.
Defined.

(** ** The bounded table view *)

Section Table.

Variable Number_toString : float -> string.
Variable Object_toString : string -> string.

Local Abbreviation cell := (cell Number_toString Object_toString).
Local Abbreviation tbody := (tbody Number_toString Object_toString).
Local Abbreviation table := (table Number_toString Object_toString).

Lemma cell_nullish (row : object) (h : string) :
  nullish (get row h) = true -> cell row h = "".
Proof.
  unfold App.cell, coalesce. intros ->. reflexivity.
Qed.

Lemma length_tbody (csvData : list object) :
  List.length (tbody csvData) = Nat.min (List.length csvData) 80.
Proof.
  unfold App.tbody. rewrite length_map, length_firstn. apply Nat.min_comm.
Qed.

(** A column the row does not have, and does not inherit either, is
    rendered as the empty string. *)
Lemma cell_absent (row : object) (h : string) :
  ~ In h (Object_keys row) -> inherited h = false -> cell row h = "".
Proof.
  intros Hh Hi. apply cell_nullish. now rewrite (get_absent row h Hh Hi).
Qed.

End Table.

(** C9 at a dataset with the columns [x] and [constructor] whose second
    line is short: the header is the key list of the first row and the
    body has both rows, but the cell the second row does not have is
    rendered as the text of the function the row inherits under that name
    (in an engine "function Object() { [native code] }"), not as the empty
    string, since [row[h]] finds the inherited member and [??] lets it
    pass. *)
Theorem table_absent_cell_inherited :
  own [("x", VNum 3)] "constructor" = None /\
  (forall (Number_toString : float -> string)
          (Object_toString : string -> string),
      table Number_toString Object_toString short_line =
        Some (["x"; "constructor"],
              [ [Number_toString 1%float; Number_toString 2%float];
                [Number_toString 3%float;
                 Object_toString "Object.prototype.constructor"] ])) /\
  cell (fun _ => "n") (fun _ => "function Object() { [native code] }")
       [("x", VNum 3)] "constructor"
    = "function Object() { [native code] }".
Proof.
  split; [reflexivity|]. split; [|reflexivity].
  intros Number_toString Object_toString. reflexivity.
Qed.

(** ** The badge colour *)

Lemma getBadgeColor_categories :
  Forall (fun c => getBadgeColor (fst c) = VStr (snd c)) categories.
Proof.
  repeat constructor.
Qed.

(** Off the names inherited from [Object.prototype], the map is total
    with the default class. *)
Lemma getBadgeColor_default (category : string) :
  ~ In category (map fst categories) ->
  inherited category = false ->
  getBadgeColor category = VStr "bg-slate-700".
Proof.
  intros Hc Hi. unfold getBadgeColor.
  rewrite (get_absent badgeMap category); [reflexivity | exact Hc | exact Hi].
Qed.

(** C10 at the category ["constructor"]: the lookup [map[category]] finds
    the member the object literal inherits from [Object.prototype], which
    is truthy, so the default class is not returned. The six categories
    get their classes, and so does the default every string that is not
    an inherited name (among them the empty string). *)
Theorem getBadgeColor_inherited_name :
  getBadgeColor "constructor" = VObj "Object.prototype.constructor" /\
  getBadgeColor "constructor" <> VStr "bg-slate-700" /\
  Forall (fun c => getBadgeColor (fst c) = VStr (snd c)) categories /\
  getBadgeColor "" = VStr "bg-slate-700".
Proof.
  split; [reflexivity|]. split; [discriminate|].
  split; [exact getBadgeColor_categories | reflexivity].
Qed.

(** ** The submitted payload *)

(** C3, as the specification states it, fails: a negative field is
    submitted as it is, not as 0. *)
Lemma payload_keeps_negative :
  ~ (forall f : Form, payload f = payload_of clamped_or_zero f).
Proof.
  intros H. specialize (H negative_form).
  apply (f_equal (fun o => match get o "pm25" with
                           | VNum x => is_zero x
                           | _ => true
                           end)) in H.
  vm_compute in H. discriminate H.
Qed.

Lemma field_value_parsed_or_zero (field : string) :
  field_value field = parsed_or_zero field.
Proof.
  unfold field_value, parsed_or_zero, or, truthy.
  now destruct (is_nan (parseFloat field) || is_zero (parseFloat field)).
Qed.

(** C3 (amended): the payload assigns each of pm25, pm10, so2, no2, co, o3
    the number [parseFloat] reads from its form field, and 0 when the field
    is empty or has no numeric prefix, or when the number read is a zero.
    No sign check is made: a negative number is submitted unchanged. *)
Theorem payload_parsed_or_zero :
  (forall f : Form, payload f = payload_of parsed_or_zero f) /\
  (forall field : string,
      str_decimal_literal (trim_start field) = None ->
      field_value field = VNum 0) /\
  field_value "" = VNum 0 /\
  (forall field : string,
      (parseFloat field <? 0)%float = true ->
      field_value field = VNum (parseFloat field)) /\
  payload negative_form =
    [ ("pm25", VNum (-5)); ("pm10", VNum 0); ("so2", VNum 0);
      ("no2", VNum 0); ("co", VNum 1.5); ("o3", VNum 12) ].
Proof.
  split; [|split; [|split; [|split]]].
  - intros f. unfold payload, payload_of.
    now rewrite !field_value_parsed_or_zero.
  - intros field Hnone. unfold field_value, parseFloat. now rewrite Hnone.
  - reflexivity.
  - intros field Hneg. rewrite field_value_parsed_or_zero. unfold parsed_or_zero.
    destruct (Binary64.negative_not_nan_nor_zero _ Hneg) as [-> ->].
    reflexivity.
  - reflexivity.
Qed.

Lemma payload_parsed_or_zero_witness :
  field_value "-5" = VNum (parseFloat "-5").
Proof.
  apply (proj1 (proj2 (proj2 (proj2 payload_parsed_or_zero))) "-5").
  reflexivity.
Defined.

(** ** The mean *)

(** C5, as the specification states it, fails: the sum is accumulated in
    binary64 from left to right, and [1e16 + 1] rounds to [1e16], so two
    orders of the same three numbers have means 0 and 1/3. *)
Lemma mean_depends_on_order :
  ~ (forall l l' : list float, Permutation l l' -> mean l = mean l').
Proof.
  intros H.
  assert (Hp : Permutation [1e16; 1; -1e16]%float [1e16; -1e16; 1]%float).
  { apply perm_skip, perm_swap. }
  apply H in Hp. apply (f_equal is_zero) in Hp.
  vm_compute in Hp. discriminate Hp.
Qed.

Lemma mean_single (x : float) : mean [x] = (0 + x)%float.
Proof.
  unfold mean. cbn [List.length fold_left].
  change (Number_of_nat 1) with 1%float. apply Binary64.div_one.
Qed.

Lemma mean_swap_head (x y : float) (l : list float) :
  mean (x :: y :: l) = mean (y :: x :: l).
Proof.
  unfold mean. cbn [List.length fold_left].
  now rewrite (Binary64.add_zero_swap x y).
Qed.

(** C5 (amended): the mean of the empty sequence is 0; the mean of a
    one-element sequence [x] is [0 + x], which is numerically equal to [x]
    for every number that is not NaN; and the mean is unchanged when the
    first two elements are exchanged, hence independent of the order for
    sequences of at most two elements. Invariance under every permutation
    does not hold: the binary64 sum rounds at each step. *)
Theorem mean_empty_single_swap :
  mean [] = 0%float /\
  (forall x : float, mean [x] = (0 + x)%float) /\
  (forall x : float, is_nan x = false -> (mean [x] =? x)%float = true) /\
  (forall (x y : float) (l : list float),
      mean (x :: y :: l) = mean (y :: x :: l)).
Proof.
  split; [reflexivity|]. split; [exact mean_single|].
  split; [|exact mean_swap_head].
  intros x Hx. rewrite mean_single, FloatAxioms.eqb_spec, Binary64.add_zero_l.
  rewrite Binary64.is_nan_spec in Hx.
  destruct (Prim2SF x) as [[|]|[|]| |s m e] eqn:E;
    try reflexivity; try discriminate Hx.
  apply Binary64.SFeqb_refl. discriminate.
Qed.

Lemma mean_empty_single_swap_witness :
  (mean [42%float] =? 42)%float = true.
Proof.
  apply (proj1 (proj2 (proj2 mean_empty_single_swap)) 42%float).
  reflexivity.
Defined.

(** ** Parsing and upload *)

Lemma keys_combine (keys : list string) (cells : list value) :
  List.length cells = List.length keys ->
  Object_keys (combine keys cells) = keys.
Proof.
  unfold Object_keys. revert cells.
  induction keys as [|k keys IH]; intros [|c cells] H; simpl in *;
    try reflexivity; try discriminate H.
  f_equal. apply IH. now injection H.
Qed.

Lemma keys_record (header : list string) (line : string) :
  List.length (Papa.fields line) = List.length header ->
  Object_keys (Papa.record header line) = header.
Proof.
  intros H. unfold Papa.record. apply keys_combine. now rewrite length_map.
Qed.

Lemma valid_inv (text : string) :
  Papa.valid text = true ->
  (0 < List.length (Papa.data_lines text))%nat /\
  Forall (fun l => List.length (Papa.fields l) = List.length (Papa.header text))
         (Papa.data_lines text).
Proof.
  unfold Papa.valid. intros H.
  apply andb_prop in H. destruct H as [H Hcells].
  apply andb_prop in H. destruct H as [_ Hrows].
  split; [now apply Nat.ltb_lt|].
  apply Forall_forall. intros l Hl.
  rewrite forallb_forall in Hcells. now apply Nat.eqb_eq, Hcells.
Qed.

Lemma upload_stores_rows (text : string) (st : State) :
  Papa.parse text <> [] ->
  csvData (upload text st) = Papa.parse text /\ csvError (upload text st) = "".
Proof.
  unfold upload. destruct (Papa.parse text) as [|r rs]; intros H.
  - now elim H.
  - split; reflexivity.
Qed.

(** C7: for a valid CSV text (a header line and at least one data line
    that is not empty, every such line with as many cells as the header has
    fields) the upload stores a Row Sequence with one Row Record per data
    line that is not empty, and the key set of every Row Record is the
    header's field set. *)
Theorem upload_rows_share_header (text : string) (st : State) :
  Papa.valid text = true ->
  csvData (upload text st) = Papa.parse text /\
  csvError (upload text st) = "" /\
  List.length (csvData (upload text st)) = List.length (Papa.data_lines text) /\
  (0 < List.length (csvData (upload text st)))%nat /\
  Forall (fun row => forall k, In k (Object_keys row) <-> In k (Papa.header text))
         (csvData (upload text st)).
Proof.
  intros Hvalid. destruct (valid_inv text Hvalid) as [Hrows Hcells].
  assert (Hlen : List.length (Papa.parse text)
                 = List.length (Papa.data_lines text)).
  { unfold Papa.parse. apply length_map. }
  assert (Hne : Papa.parse text <> []).
  { intros E. rewrite E in Hlen. simpl in Hlen. lia. }
  destruct (upload_stores_rows text st Hne) as [-> ->].
  split; [reflexivity|]. split; [reflexivity|].
  split; [exact Hlen|]. split; [lia|].
  unfold Papa.parse. apply Forall_forall. intros row Hrow.
  apply in_map_iff in Hrow. destruct Hrow as (l & <- & Hl).
  intros k. rewrite keys_record; [reflexivity|].
  rewrite Forall_forall in Hcells. now apply Hcells.
Qed.

Lemma upload_rows_share_header_witness :
  csvData (upload csv_example initial) = Papa.parse csv_example /\
  csvError (upload csv_example initial) = "" /\
  List.length (csvData (upload csv_example initial)) = 2%nat /\
  (0 < List.length (csvData (upload csv_example initial)))%nat /\
  Forall (fun row => forall k, In k (Object_keys row) <-> In k ["date"; "AQI"])
         (csvData (upload csv_example initial)).
Proof.
  apply (upload_rows_share_header csv_example initial). reflexivity.
Defined.

(** The rows of the example, and the AQI view they give. *)
Lemma parse_example :
  Papa.parse csv_example =
    [ [("date", VStr "2024-01-01"); ("AQI", VNum 42)];
      [("date", VStr "2024-01-02"); ("AQI", VNull)] ] /\
  aqiLineData (Papa.parse csv_example) =
    Some {| labels := [VStr "2024-01-01"; VStr "2024-01-02"];
            data := [VNum 42; VNum 0] |}.
Proof.
  split; reflexivity.
Qed.

(* ================================================================== *)
(** * Further properties of the component *)
(* ================================================================== *)

Import Dashboard.

(** ** Editing the form *)

Lemma own_assign (o : object) (k : string) (v : value) (k' : string) :
  own (assign o k v) k' = if String.eqb k' k then Some v else own o k'.
Proof.
  induction o as [|[k0 v0] o IH]; simpl.
  - rewrite (String.eqb_sym k k'). reflexivity.
  - destruct (String.eqb_spec k0 k) as [E|Hk0]; simpl.
    + subst k0. rewrite (String.eqb_sym k' k). now destruct (String.eqb k k').
    + destruct (String.eqb_spec k0 k') as [E|Hk']; [|exact IH].
      subst k0. destruct (String.eqb_spec k' k) as [E|_];
        [now elim Hk0 | reflexivity].
Qed.

Lemma get_assign (o : object) (k : string) (v : value) (k' : string) :
  get (assign o k v) k' = if String.eqb k' k then v else get o k'.
Proof.
  unfold get. rewrite own_assign. now destruct (String.eqb k' k).
Qed.

Lemma field_assign (o : object) (k value k' : string) :
  field (assign o k (VStr value)) k' =
    if String.eqb k' k then value else field o k'.
Proof.
  unfold field. rewrite get_assign. now destruct (String.eqb k' k).
Qed.

Lemma form_handleChange (name value : string) (st : State) :
  form (handleChange name value st) =
    {| pm25 := if String.eqb "pm25" name then value else pm25 (form st);
       pm10 := if String.eqb "pm10" name then value else pm10 (form st);
       so2 := if String.eqb "so2" name then value else so2 (form st);
       no2 := if String.eqb "no2" name then value else no2 (form st);
       co := if String.eqb "co" name then value else co (form st);
       o3 := if String.eqb "o3" name then value else o3 (form st) |}.
Proof.
  unfold handleChange, Form_of. cbn [form setForm].
  rewrite !field_assign. reflexivity.
Qed.

(** X1: typing [value] into the input called [name] changes the entry of
    the payload under that name to what [value] parses to and leaves the
    other five entries as they were; an event whose name is none of the six
    leaves the form as it is; and nothing but the form changes. *)
Theorem handleChange_updates_one_entry (name value : string) (st : State) :
  (forall k : string,
      In k inputNames ->
      get (payload (form (handleChange name value st))) k =
        if String.eqb k name then field_value value
        else get (payload (form st)) k) /\
  (~ In name inputNames -> form (handleChange name value st) = form st) /\
  result (handleChange name value st) = result st /\
  loading (handleChange name value st) = loading st /\
  calcError (handleChange name value st) = calcError st /\
  csvData (handleChange name value st) = csvData st /\
  csvError (handleChange name value st) = csvError st.
Proof.
  split; [|split; [|repeat split]].
  - intros k Hk. rewrite form_handleChange.
    destruct Hk as [<-|[<-|[<-|[<-|[<-|[<-|[]]]]]]];
      match goal with |- context [if String.eqb ?a name then field_value _ else _] =>
        destruct (String.eqb a name) end;
      reflexivity.
  - intros Hname. rewrite form_handleChange.
    assert (Hno : forall k, In k inputNames -> String.eqb k name = false).
    { intros k Hk. apply String.eqb_neq. intros ->. now apply Hname. }
    rewrite !Hno by (simpl; tauto). now destruct (form st).
Qed.

Lemma handleChange_updates_one_entry_witness :
  get (payload (form (handleChange "so2" "12.5" initial))) "so2" = VNum 12.5 /\
  get (payload (form (handleChange "so2" "12.5" initial))) "co" = VNum 0.
Proof.
  split.
  - apply (proj1 (handleChange_updates_one_entry "so2" "12.5" initial) "so2").
    simpl. tauto.
  - apply (proj1 (handleChange_updates_one_entry "so2" "12.5" initial) "co").
    simpl. tauto.
Defined.

(** ** What is submitted and plotted *)

Lemma field_value_number (field : string) :
  exists x : float,
    field_value field = VNum x /\ is_nan x = false /\
    (is_zero x = true -> x = 0%float).
Proof.
  unfold field_value, or, truthy.
  destruct (is_nan (parseFloat field)) eqn:Hnan; simpl.
  - exists 0%float. repeat split; reflexivity.
  - destruct (is_zero (parseFloat field)) eqn:Hzero; simpl.
    + exists 0%float. repeat split; reflexivity.
    + exists (parseFloat field). repeat split; [exact Hnan|].
      rewrite Hzero. discriminate.
Qed.

(** X2: whatever the six fields hold, every entry of the payload is a
    number, never NaN, and when it is a zero it is [+0]. *)
Theorem payload_entries_are_numbers (f : Form) :
  Forall
    (fun entry : string * value =>
       exists x : float,
         snd entry = VNum x /\ is_nan x = false /\
         (is_zero x = true -> x = 0%float))
    (payload f).
Proof.
  unfold payload. repeat constructor; apply field_value_number.
Qed.

(** X3: the bar chart of the reading plots, label by label, the six
    values of the payload in the payload's order; so it has one bar per
    label and never plots NaN. *)
Theorem pollutantChartData_plots_payload (f : Form) :
  snd (pollutantChartData f) = map snd (payload f) /\
  List.length (fst (pollutantChartData f))
    = List.length (snd (pollutantChartData f)) /\
  Forall (fun v => exists x : float, v = VNum x /\ is_nan x = false)
         (snd (pollutantChartData f)).
Proof.
  split; [reflexivity|]. split; [reflexivity|].
  unfold pollutantChartData, pollutantValues. cbn [snd].
  repeat constructor;
    match goal with |- exists x, field_value ?s = _ /\ _ =>
      destruct (field_value_number s) as (x & Hx & Hnan & _);
      now exists x
    end.
Qed.

(** ** Uploading a file *)

(** X4: when the parser reports an error, no data or no row, the dataset
    is emptied whatever was loaded before and an error message is set; the
    sidebar shows the message and no row count, both chart views and the
    table are absent, and the charts tab shows only its invitation. *)
Theorem failed_upload_clears_dataset (o : parse_outcome) (st : State) :
  upload_failed o = true ->
  csvData (uploaded o st) = [] /\
  csvError (uploaded o st) <> "" /\
  errorLine (uploaded o st) = Some (csvError (uploaded o st)) /\
  loadedLine (uploaded o st) = None /\
  aqiLineData (csvData (uploaded o st)) = None /\
  pollutantMeanData (csvData (uploaded o st)) = None /\
  charts (csvData (uploaded o st)) = {| invitation := true; panels := None |} /\
  (forall nts ots, table nts ots (csvData (uploaded o st)) = None).
Proof.
  intros Ho.
  destruct o as [[[|r rs]|]|]; try discriminate Ho;
    repeat split; discriminate.
Qed.

Lemma failed_upload_clears_dataset_witness :
  csvData (uploaded Failed (uploaded (Complete (Some all_zero)) initial)) = [] /\
  csvError (uploaded Failed (uploaded (Complete (Some all_zero)) initial)) <> "" /\
  errorLine (uploaded Failed (uploaded (Complete (Some all_zero)) initial))
    = Some (csvError (uploaded Failed (uploaded (Complete (Some all_zero)) initial))) /\
  loadedLine (uploaded Failed (uploaded (Complete (Some all_zero)) initial)) = None /\
  aqiLineData
    (csvData (uploaded Failed (uploaded (Complete (Some all_zero)) initial))) = None /\
  pollutantMeanData
    (csvData (uploaded Failed (uploaded (Complete (Some all_zero)) initial))) = None /\
  charts (csvData (uploaded Failed (uploaded (Complete (Some all_zero)) initial)))
    = {| invitation := true; panels := None |} /\
  (forall nts ots,
      table nts ots
        (csvData (uploaded Failed (uploaded (Complete (Some all_zero)) initial)))
      = None).
Proof.
  apply (failed_upload_clears_dataset
           Failed (uploaded (Complete (Some all_zero)) initial)).
  reflexivity.
Defined.

(** X5: when the parser reports at least one row, the rows replace the
    dataset and any earlier upload error is cleared, so the sidebar shows
    "Loaded n rows." with the number of rows and no error; and an event
    without a file changes nothing. *)
Theorem successful_upload_replaces_dataset (rows : list object) (st : State) :
  rows <> [] ->
  csvData (uploaded (Complete (Some rows)) st) = rows /\
  csvError (uploaded (Complete (Some rows)) st) = "" /\
  errorLine (uploaded (Complete (Some rows)) st) = None /\
  loadedLine (uploaded (Complete (Some rows)) st)
    = Some ("Loaded " ++ String_of_nat (List.length rows) ++ " rows.") /\
  handleFileUpload None st = st.
Proof.
  intros Hrows. destruct rows as [|r rs]; [now elim Hrows|].
  repeat split.
Qed.

Lemma successful_upload_replaces_dataset_witness :
  csvData (uploaded (Complete (Some all_zero)) (uploaded Failed initial))
    = all_zero /\
  csvError (uploaded (Complete (Some all_zero)) (uploaded Failed initial)) = "" /\
  errorLine (uploaded (Complete (Some all_zero)) (uploaded Failed initial)) = None /\
  loadedLine (uploaded (Complete (Some all_zero)) (uploaded Failed initial))
    = Some ("Loaded " ++ String_of_nat (List.length all_zero) ++ " rows.") /\
  handleFileUpload None (uploaded Failed initial) = uploaded Failed initial.
Proof.
  apply (successful_upload_replaces_dataset all_zero (uploaded Failed initial)).
  discriminate.
Defined.

(** ** The calculator and the dataset side by side *)

(** X6: an upload never touches the calculator (form, result, pending
    flag, failure message), and a calculation, at its start and when it
    settles, never touches the form, the dataset or the upload error. *)
Theorem calculator_and_dataset_independent :
  (forall (file : option parse_outcome) (st : State),
      form (handleFileUpload file st) = form st /\
      result (handleFileUpload file st) = result st /\
      loading (handleFileUpload file st) = loading st /\
      calcError (handleFileUpload file st) = calcError st) /\
  (forall st : State,
      form (handleSubmit_start st) = form st /\
      csvData (handleSubmit_start st) = csvData st /\
      csvError (handleSubmit_start st) = csvError st) /\
  (forall (o : fetch_outcome) (st : State),
      form (handleSubmit_settle o st) = form st /\
      csvData (handleSubmit_settle o st) = csvData st /\
      csvError (handleSubmit_settle o st) = csvError st).
Proof.
  split; [|split].
  - intros [[[[|r rs]|]|]|] st; repeat split.
  - intros st. repeat split.
  - intros [|[|] [data|]] st; repeat split.
Qed.

(** X7: in every state the application reaches, while a request is
    pending the calculator tab shows a disabled button labelled
    "Calculating...", no failure message and no result. *)
Theorem pending_shows_nothing (st : State) :
  reachable st ->
  loading st = true ->
  OverviewTab st =
    {| errorBox := None; buttonDisabled := true;
       buttonLabel := "Calculating..."; snapshot := None |}.
Proof.
  intros Hreach Hload.
  destruct (proj1 (reachable_consistent st Hreach) Hload) as [Herr Hres].
  unfold OverviewTab. now rewrite Herr, Hres, Hload.
Qed.

Lemma pending_shows_nothing_witness :
  OverviewTab (handleSubmit_start showing_result) =
    {| errorBox := None; buttonDisabled := true;
       buttonLabel := "Calculating..."; snapshot := None |}.
Proof.
  apply pending_shows_nothing; [|reflexivity].
  apply (reachable_step showing_result).
  - apply (reachable_step (handleSubmit_start initial)).
    + apply (reachable_step initial); [exact reachable_initial|].
      exact (step_submit initial eq_refl).
    + exact (step_settle
               (Responded true
                  (Some {| aqi := 10; category := "Good";
                           dominant_pollutant := "PM2.5";
                           chemistry_note := "..." |}))
               (handleSubmit_start initial) eq_refl).
  - exact (step_submit showing_result eq_refl).
Defined.

(** X8: what a submission leaves on display depends on how the request
    ended only, not on what was displayed before: a successful response
    leaves its body as the result with no failure message, every other
    ending leaves the failure message with no result, and in both cases
    the button is enabled again. *)
Theorem handleSubmit_outcome_decides (o : fetch_outcome) (st : State) :
  OverviewTab (handleSubmit o st) =
    {| errorBox := if succeeded o then None else Some calcFailed;
       buttonDisabled := false;
       buttonLabel := "Calculate AQI";
       snapshot := match o with
                   | Responded true (Some data) => Some data
                   | _ => None
                   end |}.
Proof.
  destruct o as [|[|] [data|]]; reflexivity.
Qed.

(** ** The charts *)

(** X9: the charts tab shows its invitation exactly when the dataset is
    empty, and otherwise both charts: the notes "No AQI column detected"
    and "CSV missing pollutant columns" are never shown, whatever the
    columns of the dataset. *)
Theorem charts_never_show_fallback (csvData : list object) :
  charts csvData =
    match csvData with
    | [] => {| invitation := true; panels := None |}
    | _ :: _ =>
        {| invitation := false;
           panels :=
             Some (AqiChart {| labels := mapi aqiLabel csvData;
                               data := map aqiValue csvData |},
                   MeanChart (pollutantKeys, pollutantMeans csvData)) |}
    end.
Proof.
  destruct csvData as [|r rs]; reflexivity.
Qed.

Lemma Forall_mapi_from {A B : Type} (P : B -> Prop) (f : A -> nat -> B)
  (l : list A) :
  (forall x i, P (f x i)) -> forall start, Forall P (mapi_from f start l).
Proof.
  intros Hf. induction l as [|x l IH]; intros start; simpl; constructor.
  - apply Hf.
  - apply IH.
Qed.

Lemma aqiLabel_truthy (r : object) (i : nat) : truthy (aqiLabel r i) = true.
Proof.
  unfold aqiLabel, or.
  destruct (truthy (get r "date")) eqn:Hdate; [exact Hdate | reflexivity].
Qed.

Lemma aqiValue_not_nullish (r : object) : nullish (aqiValue r) = false.
Proof.
  unfold aqiValue, coalesce.
  destruct (get r "AQI"), (get r "aqi"); reflexivity.
Qed.

(** X10: the AQI view has one label and one value per row of the
    dataset; no label is falsy (so none is empty, null or undefined) and no
    value is null or undefined. *)
Theorem aqiLineData_one_point_per_row (rows : list object) (view : LineData) :
  aqiLineData rows = Some view ->
  List.length (labels view) = List.length rows /\
  List.length (data view) = List.length rows /\
  Forall (fun label => truthy label = true) (labels view) /\
  Forall (fun v => nullish v = false) (data view).
Proof.
  intros Hview. unfold aqiLineData in Hview.
  destruct (0 <? List.length rows)%nat; [|discriminate].
  injection Hview as <-. cbn [labels data]. unfold mapi.
  split; [apply length_mapi_from|]. split; [apply length_map|]. split.
  - apply Forall_mapi_from. exact aqiLabel_truthy.
  - apply Forall_map, Forall_forall. intros r _. apply aqiValue_not_nullish.
Qed.

Lemma aqiLineData_one_point_per_row_witness :
  List.length [VStr "2024-01-01"; VStr "2024-01-02"] = List.length all_zero /\
  List.length [VNum 0; VNum 0] = List.length all_zero /\
  Forall (fun label => truthy label = true)
         [VStr "2024-01-01"; VStr "2024-01-02"] /\
  Forall (fun v => nullish v = false) [VNum 0; VNum 0].
Proof.
  exact (aqiLineData_one_point_per_row all_zero
           {| labels := [VStr "2024-01-01"; VStr "2024-01-02"];
              data := [VNum 0; VNum 0] |} eq_refl).
Defined.

Lemma vals_none_numeric (key : string) (rows : list object) :
  (forall r, In r rows -> numeric (get r key) = false) ->
  vals key rows = [].
Proof.
  unfold vals. induction rows as [|r rows IH]; intros H; simpl; [reflexivity|].
  rewrite (H r (or_introl eq_refl)). apply IH.
  intros r' Hr'. apply H. now right.
Qed.

(** X11: for a non-empty dataset the bar chart of the means has six
    values, the i-th being the mean of the numbers in the column of the
    i-th pollutant key; a pollutant whose column holds no number in any row
    (the column is missing, empty or textual) gets the mean 0. *)
Theorem pollutantMeans_one_per_key (rows : list object) :
  rows <> [] ->
  List.length (pollutantMeans rows) = 6%nat /\
  (forall (i : nat) (key : string),
      nth_error pollutantKeys i = Some key ->
      nth_error (pollutantMeans rows) i = Some (mean (project key rows))) /\
  (forall (i : nat) (key : string),
      nth_error pollutantKeys i = Some key ->
      (forall r, In r rows -> numeric (get r key) = false) ->
      nth_error (pollutantMeans rows) i = Some 0%float).
Proof.
  intros Hrows. unfold pollutantMeans.
  rewrite (proj2 (positive_length_nonempty rows) Hrows).
  assert (Hnth : forall i key,
             nth_error pollutantKeys i = Some key ->
             nth_error
               (map (fun key => mean (numbers (vals key rows))) pollutantKeys) i
             = Some (mean (numbers (vals key rows)))).
  { intros i key Hkey.
    exact (map_nth_error (fun key => mean (numbers (vals key rows)))
                         i pollutantKeys Hkey). }
  split; [reflexivity|]. split.
  - intros i key Hkey. rewrite (Hnth i key Hkey).
    now rewrite numbers_vals_project.
  - intros i key Hkey Hnone. rewrite (Hnth i key Hkey).
    now rewrite (vals_none_numeric key rows Hnone).
Qed.

Lemma pollutantMeans_one_per_key_witness :
  List.length (pollutantMeans foo_bar) = 6%nat /\
  (forall (i : nat) (key : string),
      nth_error pollutantKeys i = Some key ->
      nth_error (pollutantMeans foo_bar) i = Some (mean (project key foo_bar))) /\
  (forall (i : nat) (key : string),
      nth_error pollutantKeys i = Some key ->
      (forall r, In r foo_bar -> numeric (get r key) = false) ->
      nth_error (pollutantMeans foo_bar) i = Some 0%float).
Proof.
  apply (pollutantMeans_one_per_key foo_bar). discriminate.
Defined.

(** X12: the rows whose cell in a column is not a number (missing,
    textual, NaN) have no influence on the numbers taken from that column,
    hence none on its mean: dropping them from the dataset gives the same
    numbers; and the numbers of two datasets put end to end are those of
    the first followed by those of the second. *)
Theorem vals_ignores_other_rows (key : string) (rows more : list object) :
  vals key (filter (fun r => numeric (get r key)) rows) = vals key rows /\
  mean (numbers (vals key (filter (fun r => numeric (get r key)) rows)))
    = mean (numbers (vals key rows)) /\
  vals key (rows ++ more)%list = (vals key rows ++ vals key more)%list.
Proof.
  assert (Hsame : vals key (filter (fun r => numeric (get r key)) rows)
                  = vals key rows).
  { unfold vals. induction rows as [|r rows IH]; simpl; [reflexivity|].
    destruct (numeric (get r key)) eqn:Hr; simpl; [|exact IH].
    rewrite Hr. f_equal. exact IH. }
  split; [exact Hsame|]. split; [now rewrite Hsame|].
  unfold vals. now rewrite map_app, filter_app.
Qed.

Lemma mapi_from_ext_Forall2 {A B : Type} (R : A -> A -> Prop)
  (f : A -> nat -> B) (l l' : list A) :
  (forall x x' i, R x x' -> f x i = f x' i) ->
  Forall2 R l l' ->
  forall start, mapi_from f start l = mapi_from f start l'.
Proof.
  intros Hf H. induction H as [|x x' l l' Hx _ IH]; intros start; simpl.
  - reflexivity.
  - now rewrite (Hf x x' start Hx), IH.
Qed.

Lemma map_ext_Forall2 {A B : Type} (R : A -> A -> Prop) (f : A -> B)
  (l l' : list A) :
  (forall x x', R x x' -> f x = f x') -> Forall2 R l l' -> map f l = map f l'.
Proof.
  intros Hf H. induction H as [|x x' l l' Hx _ IH]; simpl.
  - reflexivity.
  - now rewrite (Hf x x' Hx), IH.
Qed.

(** X13: the charts depend on the recognised columns only: two datasets
    with the same [date], [AQI] and [aqi] cells row by row have the same
    AQI view, and two datasets with the same cells in the six pollutant
    columns have the same means, whatever their other columns hold. *)
Theorem charts_read_recognised_columns (rows rows' : list object) :
  (same_cells ["date"; "AQI"; "aqi"] rows rows' ->
   aqiLineData rows = aqiLineData rows') /\
  (same_cells pollutantKeys rows rows' ->
   pollutantMeans rows = pollutantMeans rows').
Proof.
  split; intros Hsame; pose proof (Forall2_length Hsame) as Hlen.
  - unfold aqiLineData, mapi. rewrite <- Hlen.
    destruct (0 <? List.length rows)%nat; [|reflexivity].
    do 2 f_equal.
    + refine (mapi_from_ext_Forall2 _ aqiLabel rows rows' _ Hsame 0).
      intros r r' i Hr. unfold aqiLabel. rewrite (Hr "date"); [reflexivity|].
      simpl; tauto.
    + refine (map_ext_Forall2 _ aqiValue rows rows' _ Hsame).
      intros r r' Hr. unfold aqiValue.
      rewrite (Hr "AQI"), (Hr "aqi"); [reflexivity| |]; simpl; tauto.
  - unfold pollutantMeans. rewrite <- Hlen.
    destruct (0 <? List.length rows)%nat; [|reflexivity].
    apply map_ext_in. intros key Hkey. do 2 f_equal. unfold vals. f_equal.
    refine (map_ext_Forall2 _ (fun row => get row key) rows rows' _ Hsame).
    intros r r' Hr. now apply Hr.
Qed.

Lemma charts_read_recognised_columns_witness :
  aqiLineData [[("AQI", VNum 42); ("city", VStr "Pune")]]
    = aqiLineData [[("AQI", VNum 42); ("note", VNum 1)]].
Proof.
  apply (proj1 (charts_read_recognised_columns
                  [[("AQI", VNum 42); ("city", VStr "Pune")]]
                  [[("AQI", VNum 42); ("note", VNum 1)]])).
  repeat constructor.
  intros k [<-|[<-|[<-|[]]]]; reflexivity.
Defined.

(** ** The table *)

Section TableRows.

Variable Number_toString : float -> string.
Variable Object_toString : string -> string.

Local Abbreviation cell := (cell Number_toString Object_toString).
Local Abbreviation tbody := (tbody Number_toString Object_toString).

(** X14: the table is rectangular and follows the dataset: every body row
    has one cell per header, and for [i < 80] the i-th body row renders the
    i-th row of the dataset along the headers of the first row; a cell
    holding text is shown as that text. *)
Theorem tbody_rows_follow_dataset (csvData : list object) :
  Forall (fun tr => List.length tr = List.length (headers csvData))
         (tbody csvData) /\
  (forall (i : nat) (row : object),
      (i < 80)%nat ->
      nth_error csvData i = Some row ->
      nth_error (tbody csvData) i = Some (map (cell row) (headers csvData))) /\
  (forall (row : object) (h text : string),
      get row h = VStr text -> cell row h = text).
Proof.
  split; [|split].
  - unfold App.tbody. apply Forall_map, Forall_forall.
    intros row _. apply length_map.
  - intros i row Hi Hrow. unfold App.tbody.
    rewrite nth_error_map, nth_error_firstn, (proj2 (Nat.ltb_lt i 80) Hi), Hrow.
    reflexivity.
  - intros row h text Hcell. unfold App.cell. now rewrite Hcell.
Qed.

(** X15: the rows after the 80th have no influence on the table: a
    dataset of at least 80 rows and the same dataset with more rows after
    it have the same headers and the same body. *)
Theorem tbody_ignores_rows_after_80 (csvData more : list object) :
  (80 <= List.length csvData)%nat ->
  headers (csvData ++ more)%list = headers csvData /\
  tbody (csvData ++ more)%list = tbody csvData.
Proof.
  intros Hlong.
  assert (Hheaders : headers (csvData ++ more)%list = headers csvData).
  { destruct csvData as [|row0 rows]; [simpl in Hlong; lia | reflexivity]. }
  split; [exact Hheaders|].
  unfold App.tbody. rewrite Hheaders, firstn_app.
  replace (80 - List.length csvData)%nat with 0%nat by lia.
  now rewrite firstn_0, app_nil_r.
Qed.

End TableRows.

Lemma tbody_rows_follow_dataset_witness :
  nth_error (tbody (fun _ => "0") (fun o => o) all_zero) 1
  = Some (map (cell (fun _ => "0") (fun o => o)
                    [("date", VStr "2024-01-02"); ("AQI", VNum 0)])
              (headers all_zero)).
Proof.
  apply (proj1 (proj2 (tbody_rows_follow_dataset
                         (fun _ => "0") (fun o => o) all_zero))).
  - lia.
  - reflexivity.
Defined.

Lemma tbody_ignores_rows_after_80_witness :
  headers (rows_500 ++ foo_bar)%list = headers rows_500 /\
  tbody (fun _ => "0") (fun o => o) (rows_500 ++ foo_bar)%list
    = tbody (fun _ => "0") (fun o => o) rows_500.
Proof.
  apply (tbody_ignores_rows_after_80 (fun _ => "0") (fun o => o)
           rows_500 foo_bar).
  unfold rows_500. rewrite repeat_length. lia.
Defined.

(** ** The tabs *)

Lemma visited_is_tab (activeTab : string) :
  visited activeTab -> In activeTab (map fst TABS).
Proof.
  intros [|tab previous _ Htab].
  - simpl. tauto.
  - now apply in_map.
Qed.

(** X16: whichever tab buttons have been clicked, the main area shows
    exactly one tab component and the tab bar marks exactly one button,
    the one of the active tab; for an [activeTab] that is no tab id the
    main area would be empty. *)
Theorem one_panel_per_tab :
  (forall activeTab : string,
      visited activeTab ->
      (exists p : panel, main activeTab = [p]) /\
      selected activeTab = [activeTab]) /\
  (forall activeTab : string,
      ~ In activeTab (map fst TABS) -> main activeTab = []).
Proof.
  split.
  - intros activeTab Hvisited. apply visited_is_tab in Hvisited.
    destruct Hvisited as [<-|[<-|[<-|[<-|[<-|[]]]]]];
      (split; [eexists|]; reflexivity).
  - intros activeTab Hnone. unfold main, when.
    assert (Hno : forall id, In id (map fst TABS) ->
                             String.eqb activeTab id = false).
    { intros id Hid. apply String.eqb_neq. intros ->. now apply Hnone. }
    rewrite !Hno by (simpl; tauto). reflexivity.
Qed.

Lemma one_panel_per_tab_witness :
  (exists p : panel, main "charts" = [p]) /\ selected "charts" = ["charts"].
Proof.
  apply (proj1 one_panel_per_tab "charts").
  exact (visited_click ("charts", "City & Charts") "overview" visited_initial
                       (or_intror (or_intror (or_introl eq_refl)))).
Defined.

(** ** The badge colour off the inherited names *)

(** X17: for every category that is not a name a plain object inherits,
    the badge colour is a class string: the class of the category when it
    is one of the six, and the default class otherwise. *)
Theorem getBadgeColor_class (category : string) :
  inherited category = false ->
  getBadgeColor category =
    VStr match find (fun c => String.eqb (fst c) category) categories with
         | Some c => snd c
         | None => "bg-slate-700"
         end.
Proof.
  intros Hi. unfold getBadgeColor, get, or.
  cbn [own badgeMap find categories fst snd].
  repeat match goal with
         | |- context [String.eqb ?a category] =>
             destruct (String.eqb a category); [reflexivity|]
         end.
  now rewrite Hi.
Qed.

Lemma getBadgeColor_class_witness :
  getBadgeColor "Hazardous" = VStr "bg-slate-700".
Proof.
  apply (getBadgeColor_class "Hazardous"). reflexivity.
Defined.

(** ** Successive edits and hidden columns *)

Lemma handleChange_state (name value : string) (st : State) :
  handleChange name value st = setForm (form (handleChange name value st)) st.
Proof.
  reflexivity.
Qed.

(** X18: edits of two different inputs can be made in either order with
    the same resulting state, and of two edits of the same input the later
    one alone counts. *)
Theorem handleChange_edits_compose (n1 v1 n2 v2 : string) (st : State) :
  (n1 <> n2 ->
   handleChange n2 v2 (handleChange n1 v1 st)
   = handleChange n1 v1 (handleChange n2 v2 st)) /\
  handleChange n1 v2 (handleChange n1 v1 st) = handleChange n1 v2 st.
Proof.
  split.
  - intros Hdiff.
    rewrite (handleChange_state n2 v2), (handleChange_state n1 v1 (handleChange n2 v2 st)).
    rewrite !form_handleChange. unfold handleChange at 1 2. unfold setForm.
    cbn [form result loading calcError csvData csvError].
    f_equal. f_equal;
      match goal with |- context [String.eqb ?a n2] =>
        destruct (String.eqb_spec a n2) as [E2|_], (String.eqb_spec a n1) as [E1|_];
          try reflexivity; elim Hdiff; congruence
      end.
  - rewrite (handleChange_state n1 v2), (handleChange_state n1 v2 st).
    rewrite !form_handleChange. unfold handleChange at 1. unfold setForm.
    cbn [form result loading calcError csvData csvError].
    f_equal. f_equal;
      match goal with |- context [String.eqb ?a n1] =>
        now destruct (String.eqb a n1)
      end.
Qed.

Lemma handleChange_edits_compose_witness :
  handleChange "co" "2" (handleChange "pm25" "40" initial)
  = handleChange "pm25" "40" (handleChange "co" "2" initial).
Proof.
  apply (proj1 (handleChange_edits_compose "pm25" "40" "co" "2" initial)).
  discriminate.
Defined.

Lemma Forall2_firstn {A : Type} (R : A -> A -> Prop) (n : nat) :
  forall l l' : list A, Forall2 R l l' -> Forall2 R (firstn n l) (firstn n l').
Proof.
  induction n as [|n IH]; intros l l' H; simpl; [constructor|].
  destruct H as [|x x' l l' Hx Hrest]; constructor; [exact Hx | now apply IH].
Qed.

Section HiddenColumns.

Variable Number_toString : float -> string.
Variable Object_toString : string -> string.

Local Abbreviation cell := (cell Number_toString Object_toString).
Local Abbreviation tbody := (tbody Number_toString Object_toString).

(** X19: the table shows the columns of the first row only: two datasets
    with the same headers and, row by row, the same cells under these
    headers have the same table body, whatever else their rows hold (a
    column that only later rows have is never displayed). *)
Theorem tbody_shows_first_row_columns (csvData csvData' : list object) :
  headers csvData = headers csvData' ->
  same_cells (headers csvData) csvData csvData' ->
  tbody csvData = tbody csvData'.
Proof.
  intros Hheaders Hsame. unfold App.tbody. rewrite <- Hheaders.
  refine (map_ext_Forall2 _ (fun row => map (cell row) (headers csvData))
            (firstn 80 csvData) (firstn 80 csvData') _
            (Forall2_firstn _ 80 csvData csvData' Hsame)).
  intros r r' Hr. apply map_ext_in. intros h Hh.
  unfold App.cell. now rewrite (Hr h Hh).
Qed.

End HiddenColumns.

Lemma tbody_shows_first_row_columns_witness :
  tbody (fun _ => "0") (fun o => o)
        [[("AQI", VNum 1)]; [("AQI", VNum 2); ("city", VStr "Pune")]]
  = tbody (fun _ => "0") (fun o => o)
          [[("AQI", VNum 1)]; [("AQI", VNum 2)]].
Proof.
  apply (tbody_shows_first_row_columns (fun _ => "0") (fun o => o)
           [[("AQI", VNum 1)]; [("AQI", VNum 2); ("city", VStr "Pune")]]
           [[("AQI", VNum 1)]; [("AQI", VNum 2)]]).
  - reflexivity.
  - repeat constructor; intros k [<-|[]]; reflexivity.
Defined.
